(** * Olympic medals dashboard ([app_dash.py]): data preparation and the
      four chart callbacks.

    The script loads a CSV of medal counts into a table, cleans and filters
    it once at import time, and registers four callbacks that turn dropdown
    values into chart specifications.  The table is modelled as a list of
    records, one per CSV line, in file order; the pandas operations the
    script calls ([replace], boolean-mask filtering, [unique],
    [drop_duplicates], [sort_values], [groupby(...).sum()], [nlargest],
    [isin]) are written out as list functions; the callbacks are written
    twice over: as functions of the table, and as computations over the
    module's globals, so that what they do to those globals can be stated.
    The column check of the loader, the initial values of the dropdowns
    and the way Dash calls the callbacks on a change are modelled as well. *)

From Stdlib Require Import ZArith String Ascii DecimalString Lia.
From Stdlib Require Import Sorting.Sorted Sorting.Permutation.
From stdpp Require Import base decidable list strings.

Local Open Scope Z_scope.
Local Open Scope string_scope.

(** ** Python values that reach the callbacks

    A dropdown hands its callback the [value] of the chosen option, or
    [None] when the selection was cleared.  The options of this layout
    carry strings (country names, medal keys, the ['All'] sentinel) and
    integers (years). *)

Inductive PyVal : Type :=
| PNone
| PStr (s : string)
| PInt (z : Z).

#[global] Instance PyVal_eq_dec : EqDecision PyVal.
Proof. solve_decision. Defined.

(** [str(int)] *)
Definition str_int (z : Z) : string := NilZero.string_of_int (Z.to_int z).

(** [str(v)] *)
Definition py_str (v : PyVal) : string :=
  match v with
  | PNone => "None"
  | PStr s => s
  | PInt z => str_int z
  end.

(** Truth value of [v], as tested by [if v:] and [not v]. *)
Definition truthy (v : PyVal) : bool :=
  match v with
  | PNone => false
  | PStr s => negb (bool_decide (s = ""))
  | PInt z => negb (z =? 0)%Z
  end.

(** [s.replace("_", " ")] *)
Fixpoint replace_underscore (s : string) : string :=
  match s with
  | EmptyString => EmptyString
  | String c s' =>
      String (if bool_decide (c = "_"%char) then " "%char else c)
             (replace_underscore s')
  end.

(** ** Generic list operations standing for the pandas calls *)

Fixpoint sum_Z (l : list Z) : Z :=
  match l with
  | [] => 0
  | x :: l' => x + sum_Z l'
  end.

Section Generic.
Context {A : Type}.

(** Stable insertion sort for a boolean "comes no later than" test:
    among elements the test does not separate, the input order is kept
    (Python's [sorted], and the merge sort inside [nlargest]). *)
Section Sort.
Variable le : A -> A -> bool.

Fixpoint insert_sorted (x : A) (l : list A) : list A :=
  match l with
  | [] => [x]
  | y :: l' => if le x y then x :: y :: l' else y :: insert_sorted x l'
  end.

Definition stable_sort (l : list A) : list A := foldr insert_sorted [] l.
End Sort.

Context `{EqDecision A}.

(** [Series.unique()] / [DataFrame.drop_duplicates()]: the distinct
    values in order of first appearance. *)
Fixpoint unique (l : list A) : list A :=
  match l with
  | [] => []
  | x :: l' => x :: filter (fun y => y <> x) (unique l')
  end.
End Generic.

(** ** The table

    Every cell is taken to hold a value of its column's type: integers for
    [Year] and the medal counts, strings for the names (a CSV with empty
    cells in these columns is outside the model).  Integers are the
    mathematical ones; medal counts are far from any machine bound. *)

(** One line of the CSV, restricted to the columns the script checks for
    ([expected_cols_from_user]). *)
Record CsvRow : Type := mkCsvRow {
  csv_Year : Z;
  csv_Host_country : string;
  csv_Host_city : string;
  csv_Country_Name : string;
  csv_Country_Code : string;
  csv_Gold : Z;
  csv_Silver : Z;
  csv_Bronze : Z
}.

(** One row of [df]: the CSV columns and the added [Total_Medals]. *)
Record Row : Type := mkRow {
  Year : Z;
  Host_country : string;
  Host_city : string;
  Country_Name : string;
  Country_Code : string;
  Gold : Z;
  Silver : Z;
  Bronze : Z;
  Total_Medals : Z
}.

(** [Series.replace(old, new)] on one cell: whole-value match. *)
Definition replace_value (old new s : string) : string :=
  if bool_decide (s = old) then new else s.

(** Line 26: [df_full['Country_Name'] = df_full['Country_Name'].replace(...)] *)
Definition fix_country (r : CsvRow) : CsvRow :=
  mkCsvRow (csv_Year r) (csv_Host_country r) (csv_Host_city r)
           (replace_value "United States" "United States of America"
                          (csv_Country_Name r))
           (csv_Country_Code r) (csv_Gold r) (csv_Silver r) (csv_Bronze r).

(** Line 29: the mask [(Year >= 1992) & (Year <= 2020)] *)
Definition in_range (r : CsvRow) : Prop :=
  1992 <= csv_Year r /\ csv_Year r <= 2020.

#[global] Instance in_range_dec (r : CsvRow) : Decision (in_range r).
Proof. unfold in_range. apply _. Defined.

(** Line 32: [df['Total_Medals'] = df['Gold'] + df['Silver'] + df['Bronze']] *)
Definition add_total (r : CsvRow) : Row :=
  mkRow (csv_Year r) (csv_Host_country r) (csv_Host_city r)
        (csv_Country_Name r) (csv_Country_Code r)
        (csv_Gold r) (csv_Silver r) (csv_Bronze r)
        (csv_Gold r + csv_Silver r + csv_Bronze r).

(** Lines 26-32: from the loaded table to [df]. *)
Definition prepare (df_full : list CsvRow) : list Row :=
  fmap add_total (filter in_range (fmap fix_country df_full)).

(** Line 35: [sorted(df['Country_Name'].unique())] *)
Definition all_countries_of (t : list Row) : list string :=
  stable_sort String.leb (unique (fmap Country_Name t)).


(** ** Year options (lines 39-42) *)

Record YearOption : Type := mkYearOption {
  label : string;
  value : PyVal
}.

Definition HostTriple : Type := (Z * string * string)%type.

Definition triple_year (t : HostTriple) : Z := fst (fst t).

Definition host_triple (r : Row) : HostTriple :=
  (Year r, Host_city r, Host_country r).

(** [df[['Year','Host_city','Host_country']].drop_duplicates().sort_values('Year')].
    Rows with the same [Year] stay in order of first appearance here; the
    properties below do not depend on how such ties are ordered. *)
Definition year_host_info (t : list Row) : list HostTriple :=
  stable_sort (fun a b => (triple_year a <=? triple_year b)%Z)
              (unique (fmap host_triple t)).

Definition all_years_label : string := "Todos os anos (1992-2020)".

Definition sentinel_option : YearOption :=
  mkYearOption all_years_label (PStr "All").

(** The dict built per row of [year_host_info] by the comprehension. *)
Definition option_of_triple (t : HostTriple) : YearOption :=
  let '(y, city, country) := t in
  mkYearOption (str_int y +:+ " - " +:+ city +:+ ", " +:+ country) (PInt y).

Definition year_options_of (t : list Row) : list YearOption :=
  sentinel_option :: fmap option_of_triple (year_host_info t).

(** ** Results of a callback *)

Inductive exn : Type := KeyError.

(** A call returns a value or raises.  [OutOfModel] marks the calls whose
    result depends on how pandas and plotly treat a grouping key or a text
    column used as the metric; the dropdowns never produce such a call. *)
Inductive Outcome (A : Type) : Type :=
| Returns (a : A)
| Raises (e : exn)
| OutOfModel.

Arguments Returns {A} a.
Arguments Raises {A} e.
Arguments OutOfModel {A}.

#[global] Instance Outcome_bind : MBind Outcome := fun A B k o =>
  match o with
  | Returns a => k a
  | Raises e => Raises e
  | OutOfModel => OutOfModel
  end.

(** ** Column selection, grouping and top-N *)

(** The medal columns of [df], by name. *)
Definition medal_columns : list (string * (Row -> Z)) :=
  [("Gold", Gold); ("Silver", Silver); ("Bronze", Bronze);
   ("Total_Medals", Total_Medals)].

(** The other columns of [df]: the grouping keys and the text columns. *)
Definition other_columns : list string :=
  ["Year"; "Host_country"; "Host_city"; "Country_Name"; "Country_Code"].

Fixpoint assoc {V : Type} (k : string) (l : list (string * V)) : option V :=
  match l with
  | [] => None
  | (k', v) :: l' => if bool_decide (k = k') then Some v else assoc k l'
  end.

(** [grouped[medal_col]]: the column named by the selector.  A key that
    names no column ([None] included) is a [KeyError]. *)
Definition select_column (v : PyVal) : Outcome (string * (Row -> Z)) :=
  match v with
  | PStr s =>
      match assoc s medal_columns with
      | Some col => Returns (s, col)
      | None => if bool_decide (s ∈ other_columns) then OutOfModel
                else Raises KeyError
      end
  | _ => Raises KeyError
  end.

(** [t.groupby(key)[col].sum()]: one entry per distinct key, keys in
    ascending order, each with the sum of [col] over the rows of its
    group. *)
Definition groupby_sum {K : Type} `{EqDecision K} (le : K -> K -> bool)
    (key : Row -> K) (col : Row -> Z) (t : list Row) : list (K * Z) :=
  fmap (fun k => (k, sum_Z (fmap col (filter (fun r => key r = k) t))))
      (stable_sort le (unique (fmap key t))).

(** Order of the two-level group keys [(Country_Name, Year)]. *)
Definition country_year_leb (a b : string * Z) : bool :=
  String.ltb (fst a) (fst b)
  || (bool_decide (fst a = fst b) && (snd a <=? snd b)%Z).

(** [Series.nlargest(n)] (default [keep='first']): the [n] largest values
    in decreasing order, equal values in their original order.  (On a
    series of at most [n] entries pandas sorts all of it, and the order
    among equal values is then that of its sort; which entries are
    selected is the same.) *)
Definition Series_nlargest {K : Type} (n : nat) (s : list (K * Z)) : list (K * Z) :=
  take n (stable_sort (fun a b => (snd b <=? snd a)%Z) s).

(** [DataFrame.nlargest(n, column)] for a single column: pandas runs the
    [Series] selection on that column and keeps the rows it picks. *)
Definition DataFrame_nlargest {R : Type} (n : nat) (column : R -> Z)
    (rows : list R) : list R :=
  take n (stable_sort (fun a b => (column b <=? column a)%Z) rows).

(** ** Chart specifications *)

Inductive Kind : Type := pie | choropleth | area | bar.

(** One row of the data frame handed to plotly express: the category
    (country, or medal name for the pie), the year where the frame has
    one, and the plotted number. *)
Record Point : Type := mkPoint {
  pt_name : string;
  pt_year : option Z;
  pt_value : Z
}.

Record Figure : Type := mkFigure {
  fig_kind : Kind;
  fig_title : string;
  fig_data : list Point;
  fig_labels : list (string * string);
  fig_color_discrete_map : list (string * string);
  fig_annotations : list string;
  fig_textinfo : option (string * string);
  fig_marker_color : option string;
  fig_xaxis_type : option string
}.

(** [px.<kind>(data, title=..., labels=..., color_discrete_map=...)] *)
Definition px (k : Kind) (data : list Point) (title : string)
    (labels cmap : list (string * string)) : Figure :=
  mkFigure k title data labels cmap [] None None None.

(** [fig.update_layout(annotations=[dict(text=..., showarrow=False)])] *)
Definition update_layout (texts : list string) (f : Figure) : Figure :=
  mkFigure (fig_kind f) (fig_title f) (fig_data f) (fig_labels f)
           (fig_color_discrete_map f) texts (fig_textinfo f)
           (fig_marker_color f) (fig_xaxis_type f).

(** [fig.update_traces(textposition=..., textinfo=...)] *)
Definition update_traces_text (pos info : string) (f : Figure) : Figure :=
  mkFigure (fig_kind f) (fig_title f) (fig_data f) (fig_labels f)
           (fig_color_discrete_map f) (fig_annotations f) (Some (pos, info))
           (fig_marker_color f) (fig_xaxis_type f).

(** [fig.update_traces(marker_color=...)] *)
Definition update_traces_color (c : string) (f : Figure) : Figure :=
  mkFigure (fig_kind f) (fig_title f) (fig_data f) (fig_labels f)
           (fig_color_discrete_map f) (fig_annotations f) (fig_textinfo f)
           (Some c) (fig_xaxis_type f).

(** [fig.update_xaxes(type=...)] *)
Definition update_xaxes (ty : string) (f : Figure) : Figure :=
  mkFigure (fig_kind f) (fig_title f) (fig_data f) (fig_labels f)
           (fig_color_discrete_map f) (fig_annotations f) (fig_textinfo f)
           (fig_marker_color f) (Some ty).

(** The countries (or medal names) a figure shows. *)
Definition fig_names (f : Figure) : list string := fmap pt_name (fig_data f).

(** ** The four charts, as functions of the table *)

Definition point_of_total (e : string * Z) : Point :=
  mkPoint (fst e) None (snd e).

Definition point_of_year_total (e : string * Z * Z) : Point :=
  mkPoint (fst (fst e)) (Some (snd (fst e))) (snd e).

Definition medal_color_map : list (string * string) :=
  [("Ouro", "gold"); ("Prata", "silver"); ("Bronze", "#cd7f32")].

(** Body of [update_pie_chart] (lines 98-122). *)
Definition pie_chart (t : list Row) (selected_country : PyVal) : Outcome Figure :=
  if negb (truthy selected_country) then
    Returns (update_layout ["Nenhum país selecionado"]
               (px pie [] "Por favor, selecione um país" [] []))
  else
    let country_data :=
      filter (fun r => PStr (Country_Name r) = selected_country) t in
    match country_data with
    | [] =>
        Returns (update_layout ["Dados não disponíveis"]
                   (px pie []
                       ("Sem dados para " +:+ py_str selected_country
                          +:+ " (1992-2020)") [] []))
    | _ :: _ =>
        let medal_sum (c : Row -> Z) := sum_Z (fmap c country_data) in
        let medal_counts_df :=
          [mkPoint "Ouro" None (medal_sum Gold);
           mkPoint "Prata" None (medal_sum Silver);
           mkPoint "Bronze" None (medal_sum Bronze)] in
        Returns (update_traces_text "inside" "percent+label+value"
                   (px pie medal_counts_df
                       ("Distribuição de Medalhas de "
                          +:+ py_str selected_country +:+ " (1992-2020)")
                       [] medal_color_map))
    end.

(** [df.groupby('Country_Name', as_index=False)[medal_col].sum()] *)
Definition totals_by_country (col : Row -> Z) (t : list Row) : list (string * Z) :=
  groupby_sum String.leb Country_Name col t.

(** Body of [update_map_chart] (lines 130-140). *)
Definition map_chart (t : list Row) (selected_medal_type : PyVal) : Outcome Figure :=
  '(medal_col, col) ← select_column selected_medal_type;
  let map_data := totals_by_country col t in
  Returns (px choropleth (fmap point_of_total map_data)
              ("Total de " +:+ replace_underscore medal_col
                 +:+ " por país (1992-2020)") [] []).

(** Line 150 *)
Definition country_year_totals (col : Row -> Z) (t : list Row)
    : list (string * Z * Z) :=
  groupby_sum country_year_leb (fun r => (Country_Name r, Year r)) col t.

(** Line 151: the index of the ten largest per-country totals. *)
Definition top_10_countries_overall (col : Row -> Z) (t : list Row) : list string :=
  fmap fst (Series_nlargest 10 (totals_by_country col t)).

(** Body of [update_area_chart] (lines 148-161). *)
Definition area_chart (t : list Row) (selected_medal_type : PyVal) : Outcome Figure :=
  '(medal_col, col) ← select_column selected_medal_type;
  let df_country_year_medals := country_year_totals col t in
  let top_10 := top_10_countries_overall col t in
  let df_top_10 :=
    filter (fun e => fst (fst e) ∈ top_10) df_country_year_medals in
  Returns (update_xaxes "category"
             (px area (fmap point_of_year_total df_top_10)
                 ("Top 10 países por " +:+ replace_underscore medal_col
                    +:+ " (1992-2020)")
                 [(medal_col, replace_underscore medal_col +:+ " conquistadas")]
                 [])).

(** Lines 171-175: the rows the bar chart aggregates. *)
Definition current_df_bar (t : list Row) (selected_year_value : PyVal) : list Row :=
  if bool_decide (selected_year_value <> PStr "All")
  then filter (fun r => PInt (Year r) = selected_year_value) t
  else t.

(** Line 176: [next((item for item in year_options if ...), None)] *)
Definition year_label_info_obj (opts : list YearOption) (selected_year_value : PyVal)
    : option YearOption :=
  List.find (fun item => bool_decide (value item = selected_year_value)) opts.

(** Lines 173-180 *)
Definition year_title_segment (opts : list YearOption) (selected_year_value : PyVal)
    : string :=
  if bool_decide (selected_year_value <> PStr "All")
  then match year_label_info_obj opts selected_year_value with
       | Some item => label item
       | None => py_str selected_year_value
       end
  else "Todos os anos (1992-2020)".

(** Lines 182-183 *)
Definition df_grouped_bar (col : Row -> Z) (t : list Row)
    (selected_year_value : PyVal) : list (string * Z) :=
  DataFrame_nlargest 10 snd
    (totals_by_country col (current_df_bar t selected_year_value)).

(** Lines 185-188 *)
Definition bar_color_val (medal_col : string) : option string :=
  if bool_decide (medal_col = "Gold") then Some "gold"
  else if bool_decide (medal_col = "Silver") then Some "silver"
  else if bool_decide (medal_col = "Bronze") then Some "#cd7f32"
  else None.

(** Body of [update_bar_chart] (lines 170-197). *)
Definition bar_chart (t : list Row) (opts : list YearOption)
    (selected_medal_type selected_year_value : PyVal) : Outcome Figure :=
  let segment := year_title_segment opts selected_year_value in
  '(medal_col, col) ← select_column selected_medal_type;
  let fig_bar :=
    px bar (fmap point_of_total (df_grouped_bar col t selected_year_value))
       ("Top 10 países por " +:+ replace_underscore medal_col
          +:+ " em " +:+ segment)
       [("Country_Name", "País"); (medal_col, replace_underscore medal_col)]
       [] in
  Returns (match bar_color_val medal_col with
           | Some c => update_traces_color c fig_bar
           | None => fig_bar
           end).

(** ** The module's globals and the callbacks over them *)

Record Globals : Type := mkGlobals {
  df : list Row;
  all_countries : list string;
  year_options : list YearOption
}.

(** Import-time code (lines 26-42) on a loaded, column-checked table. *)
Definition startup (df_full : list CsvRow) : Globals :=
  let t := prepare df_full in
  mkGlobals t (all_countries_of t) (year_options_of t).

(** A callback runs against the globals and leaves globals behind. *)
Definition Callback (A : Type) : Type := Globals -> Globals * Outcome A.

Definition read {A : Type} (f : Globals -> A) : Callback A :=
  fun g => (g, Returns (f g)).

Definition finish {A : Type} (o : Outcome A) : Callback A :=
  fun g => (g, o).

Definition cbind {A B : Type} (c : Callback A) (k : A -> Callback B) : Callback B :=
  fun g =>
    match c g with
    | (g', Returns a) => k a g'
    | (g', Raises e) => (g', Raises e)
    | (g', OutOfModel) => (g', OutOfModel)
    end.

Definition update_pie_chart (selected_country : PyVal) : Callback Figure :=
  cbind (read df) (fun t =>
  finish (pie_chart t selected_country)).

Definition update_map_chart (selected_medal_type : PyVal) : Callback Figure :=
  cbind (read df) (fun t =>
  finish (map_chart t selected_medal_type)).

Definition update_area_chart (selected_medal_type : PyVal) : Callback Figure :=
  cbind (read df) (fun t =>
  finish (area_chart t selected_medal_type)).

Definition update_bar_chart (selected_medal_type selected_year_value : PyVal)
    : Callback Figure :=
  cbind (read df) (fun t =>
  cbind (read year_options) (fun opts =>
  finish (bar_chart t opts selected_medal_type selected_year_value))).

(** What the Dash runtime does on a dropdown change: call the callbacks
    bound to it.  A [Call] names one such invocation with its arguments. *)
Inductive Call : Type :=
| CallPie (selected_country : PyVal)
| CallMap (selected_medal_type : PyVal)
| CallArea (selected_medal_type : PyVal)
| CallBar (selected_medal_type selected_year_value : PyVal).

Definition invoke (c : Call) : Callback Figure :=
  match c with
  | CallPie v => update_pie_chart v
  | CallMap v => update_map_chart v
  | CallArea v => update_area_chart v
  | CallBar m y => update_bar_chart m y
  end.

(** Globals after a sequence of invocations. *)
Fixpoint run_calls (cs : list Call) (g : Globals) : Globals :=
  match cs with
  | [] => g
  | c :: cs' => run_calls cs' (fst (invoke c g))
  end.

(** The figure (or error) a call yields in a given state. *)
Definition result_of (c : Call) (g : Globals) : Outcome Figure := snd (invoke c g).


(** ** Loading and the column check (lines 8-23) *)

(** What [pd.read_csv] did: raised [FileNotFoundError], raised another
    exception (with its message), or returned a table.  The rows of a
    returned table carry the cells of the expected columns; they are read
    only when the column check has passed. *)
Inductive ReadResult : Type :=
| FileNotFound
| ReadFailed (e : string)
| Loaded (columns : list string) (rows : list CsvRow).

(** Line 18 *)
Definition expected_cols_from_user : list string :=
  ["Year"; "Host_country"; "Host_city"; "Country_Name"; "Country_Code";
   "Gold"; "Silver"; "Bronze"].

(** Line 19: [[col for col in expected_cols_from_user if col not in df_full.columns]] *)
Definition missing_cols (columns : list string) : list string :=
  filter (fun col => col ∉ columns) expected_cols_from_user.

(** [sep.join(l)] *)
Fixpoint join (sep : string) (l : list string) : string :=
  match l with
  | [] => ""
  | [x] => x
  | x :: l' => x +:+ sep +:+ join sep l'
  end.

(** The script either prints a diagnostic and calls [exit()], or goes on
    to build its globals and the app. *)
Inductive Startup : Type :=
| Exited (printed : list string)
| Running (g : Globals).

(** Lines 8-42 *)
Definition load (r : ReadResult) : Startup :=
  match r with
  | FileNotFound =>
      Exited ["Erro: 'Summer_olympic_Medals.csv' não encontrado. Certifique-se de que o arquivo está no diretório correto."]
  | ReadFailed e => Exited ["Erro ao carregar o CSV: " +:+ e]
  | Loaded columns rows =>
      match missing_cols columns with
      | [] => Running (startup rows)
      | _ :: _ =>
          Exited ["Erro: O arquivo CSV está faltando as seguintes colunas esperadas: "
                    +:+ join ", " (missing_cols columns);
                  "Colunas disponíveis são: " +:+ join ", " columns]
      end
  end.

(** ** Layout: the three dropdowns (lines 55-77) *)

(** A [dcc.Dropdown]: its option dicts (label and value, as for the years)
    and its initial value. *)
Record Dropdown : Type := mkDropdown {
  dd_options : list YearOption;
  dd_value : PyVal
}.



(** Lines 73-77: [value=all_countries[0] if all_countries else None] *)
Definition country_dropdown (g : Globals) : Dropdown :=
  mkDropdown
    (fmap (fun country => mkYearOption country (PStr country)) (all_countries g))
    (match all_countries g with
     | country :: _ => PStr country
     | [] => PNone
     end).

(** ** The callbacks as Dash runs them (decorators at lines 93-96, 125-128,
       143-146 and 164-168)

    Dash keeps the current value of each dropdown.  At page load it calls
    every callback with the initial values; when a dropdown changes it
    calls the callbacks that list that dropdown as an [Input], each with
    the current values of all its inputs. *)










(** ** A small table for concrete runs

    Five CSV lines: one outside the year range, one with the country name
    that loading rewrites. *)
Definition sample_csv : list CsvRow :=
  [mkCsvRow 2016 "Brazil" "Rio de Janeiro" "United States" "USA" 46 37 38;
   mkCsvRow 2016 "Brazil" "Rio de Janeiro" "Brazil" "BRA" 7 6 6;
   mkCsvRow 1988 "South Korea" "Seoul" "Brazil" "BRA" 1 2 3;
   mkCsvRow 1992 "Spain" "Barcelona" "Brazil" "BRA" 2 1 0;
   mkCsvRow 1992 "Spain" "Barcelona" "Cuba" "CUB" 14 6 11].

Definition sample_globals : Globals := startup sample_csv.

(** Eleven countries in one year, with 1 to 11 gold medals, and a table
    whose only row is outside the year range. *)
Definition sample_eleven : list CsvRow :=
  fmap (fun e => mkCsvRow 2000 "Australia" "Sydney" (fst e) "" (snd e) 0 0)
       [("A", 1); ("B", 2); ("C", 3); ("D", 4); ("E", 5); ("F", 6); ("G", 7);
        ("H", 8); ("I", 9); ("J", 10); ("K", 11)].


(** * Properties *)

(** ** Sorting, deduplication and sums *)

Section SortFacts.
Context {A : Type} (le : A -> A -> bool).

Lemma insert_sorted_perm (x : A) (l : list A) :
  insert_sorted le x l ≡ₚ x :: l.
Proof.
  induction l as [|y l IH]; simpl; [done|].
  destruct (le x y); [done|].
  rewrite IH. apply Permutation_swap.
Qed.

Lemma stable_sort_perm (l : list A) : stable_sort le l ≡ₚ l.
Proof.
  induction l as [|x l IH]; simpl; [done|].
  rewrite insert_sorted_perm. by rewrite IH.
Qed.

Lemma elem_of_stable_sort (x : A) (l : list A) :
  x ∈ stable_sort le l <-> x ∈ l.
Proof. by rewrite stable_sort_perm. Qed.

Lemma NoDup_stable_sort (l : list A) : NoDup l -> NoDup (stable_sort le l).
Proof. by rewrite stable_sort_perm. Qed.

Hypothesis le_total : forall x y, le x y = false -> le y x = true.

Lemma insert_sorted_Sorted (x : A) (l : list A) :
  Sorted (fun a b => le a b = true) l ->
  Sorted (fun a b => le a b = true) (insert_sorted le x l).
Proof.
  induction 1 as [|y l Hs IH Hhd]; simpl.
  - repeat constructor.
  - destruct (le x y) eqn:Hxy.
    + constructor; [by constructor | by constructor].
    + constructor; [exact IH|].
      destruct Hhd as [|z l Hyz]; simpl.
      * constructor. by apply le_total.
      * destruct (le x z); constructor; [by apply le_total | done].
Qed.

Lemma stable_sort_Sorted (l : list A) :
  Sorted (fun a b => le a b = true) (stable_sort le l).
Proof.
  induction l as [|x l IH]; simpl; [constructor|].
  by apply insert_sorted_Sorted.
Qed.
End SortFacts.

Section UniqueFacts.
Context {A : Type} `{EqDecision A}.

Lemma elem_of_unique (x : A) (l : list A) : x ∈ unique l <-> x ∈ l.
Proof.
  induction l as [|y l IH]; simpl; [done|].
  rewrite !elem_of_cons, list_elem_of_filter, IH.
  destruct (decide (x = y)); tauto.
Qed.

Lemma NoDup_unique (l : list A) : NoDup (unique l).
Proof.
  induction l as [|y l IH]; simpl; constructor.
  - rewrite list_elem_of_filter. intros [Hne _]. by apply Hne.
  - by apply NoDup_filter.
Qed.
End UniqueFacts.



Lemma filter_none {R : Type} (P : R -> Prop) `{forall r, Decision (P r)}
    (t : list R) :
  (forall r, r ∈ t -> ~ P r) -> filter P t = [].
Proof.
  induction t as [|r t IH]; intros Hnone; [done|].
  rewrite filter_cons, decide_False by (apply Hnone; left).
  apply IH. intros r' Hr'. apply Hnone. by right.
Qed.




Lemma filter_fmap {A B : Type} (f : A -> B) (P : B -> Prop)
    `{forall b, Decision (P b)} (l : list A) :
  filter P (f <$> l) = f <$> filter (fun a => P (f a)) l.
Proof.
  induction l as [|a l IH]; [done|].
  rewrite fmap_cons, !filter_cons.
  destruct (decide (P (f a))); by rewrite IH.
Qed.

(** ** Preparation of the table *)

Lemma replace_value_neq (old new s : string) :
  new <> old -> replace_value old new s <> old.
Proof.
  intros Hne. unfold replace_value. by case_bool_decide.
Qed.

Lemma prepare_rows (df_full : list CsvRow) :
  prepare df_full
  = (fun r => add_total (fix_country r)) <$> filter in_range df_full.
Proof.
  unfold prepare. rewrite filter_fmap, <- list_fmap_compose.
  f_equal.
Qed.


(** ** The callbacks and the globals *)

Lemma invoke_globals (c : Call) (g : Globals) : fst (invoke c g) = g.
Proof. by destruct c. Qed.

Lemma run_calls_globals (cs : list Call) (g : Globals) : run_calls cs g = g.
Proof.
  revert g. induction cs as [|c cs IH]; intros g; simpl; [done|].
  by rewrite invoke_globals.
Qed.

Lemma result_of_reads (c : Call) (g g' : Globals) :
  df g = df g' -> year_options g = year_options g' ->
  result_of c g = result_of c g'.
Proof.
  intros Hdf Hopts. destruct c; unfold result_of; simpl;
    by rewrite ?Hdf, ?Hopts.
Qed.

(** C1: each of the four chart callbacks is stateless and deterministic.
    An invocation leaves the module's globals as it found them; its result
    is a function of its arguments, the table and the year options only;
    and whatever invocations of the four callbacks ran before, the same
    call on the same prepared table returns the same chart. *)
Theorem callbacks_stateless_deterministic
    (g : Globals) (c : Call) (before1 before2 : list Call) :
  fst (invoke c g) = g
  /\ result_of c (run_calls before1 g) = result_of c g
  /\ result_of c (run_calls before1 g) = result_of c (run_calls before2 g)
  /\ (forall g' : Globals,
        df g' = df g -> year_options g' = year_options g ->
        result_of c g' = result_of c g).
Proof.
  rewrite !run_calls_globals. repeat split.
  - apply invoke_globals.
  - intros g' Hdf Hopts. by apply result_of_reads.
Qed.


(** C10: loading rewrites every [Country_Name] equal to "United States" to
    "United States of America" (and leaves every other name alone) before
    the year filter and everything after it, so neither the prepared table
    nor the sorted country list contains the name "United States". *)
Theorem united_states_renamed (df_full : list CsvRow) :
  Country_Name <$> df (startup df_full)
  = (fun r => if bool_decide (csv_Country_Name r = "United States")
              then "United States of America"
              else csv_Country_Name r) <$> filter in_range df_full
  /\ Forall (fun r => Country_Name r <> "United States") (df (startup df_full))
  /\ Forall (fun c => c <> "United States") (all_countries (startup df_full)).
Proof.
  assert (Hrows : Forall (fun r => Country_Name r <> "United States")
                         (prepare df_full)).
  { rewrite prepare_rows. apply Forall_fmap, Forall_forall.
    intros r _. simpl. by apply replace_value_neq. }
  simpl. split; [|split; [exact Hrows|]].
  - rewrite prepare_rows, <- list_fmap_compose. done.
  - apply Forall_forall. intros c Hc.
    unfold all_countries_of in Hc.
    rewrite elem_of_stable_sort, elem_of_unique, list_elem_of_fmap in Hc.
    destruct Hc as (r & -> & Hr).
    rewrite Forall_forall in Hrows. by apply Hrows.
Qed.

(** ** Year options *)

Lemma Sorted_weaken {A : Type} (R R' : A -> A -> Prop) (l : list A) :
  (forall a b, R a b -> R' a b) -> Sorted R l -> Sorted R' l.
Proof.
  intros HR. induction 1 as [|x l Hs IH Hhd]; constructor; [exact IH|].
  destruct Hhd; constructor. by apply HR.
Qed.

Lemma year_host_info_sorted (t : list Row) :
  StronglySorted (fun a b => triple_year a <= triple_year b) (year_host_info t).
Proof.
  apply Sorted_StronglySorted.
  - intros a b c Hab Hbc. lia.
  - unfold year_host_info.
    eapply Sorted_weaken; [|apply stable_sort_Sorted].
    + intros a b Hab. by apply Z.leb_le.
    + intros a b Hab. apply Z.leb_le. apply Z.leb_gt in Hab. lia.
Qed.

Lemma elem_of_year_host_info (t : list Row) (y : Z) (city country : string) :
  (y, city, country) ∈ year_host_info t
  <-> exists r, r ∈ t /\ Year r = y /\ Host_city r = city
                /\ Host_country r = country.
Proof.
  unfold year_host_info.
  rewrite elem_of_stable_sort, elem_of_unique, list_elem_of_fmap.
  unfold host_triple. split.
  - intros (r & Heq & Hr). exists r. by simplify_eq.
  - intros (r & Hr & <- & <- & <-). by exists r.
Qed.

(** C9: the year options are computed at startup, and stay as computed
    whatever callbacks run.  The list is the sentinel (value ['All'],
    label "Todos os anos (1992-2020)") followed by one option per distinct
    [(Year, Host_city, Host_country)] triple of the prepared table, in
    ascending order of [Year]; the option of a triple has the year as its
    value and "{year} - {city}, {country}" as its label. *)
Theorem year_options_built (df_full : list CsvRow) (cs : list Call) :
  exists triples : list (Z * string * string),
    year_options (startup df_full)
    = mkYearOption "Todos os anos (1992-2020)" (PStr "All")
      :: ((fun '(y, city, country) =>
             mkYearOption (str_int y +:+ " - " +:+ city +:+ ", " +:+ country)
                          (PInt y)) <$> triples)
    /\ NoDup triples
    /\ (forall y city country,
          (y, city, country) ∈ triples
          <-> exists r, r ∈ df (startup df_full) /\ Year r = y
                        /\ Host_city r = city /\ Host_country r = country)
    /\ StronglySorted (fun a b => fst (fst a) <= fst (fst b)) triples
    /\ year_options (run_calls cs (startup df_full))
       = year_options (startup df_full).
Proof.
  exists (year_host_info (prepare df_full)).
  rewrite run_calls_globals. simpl. repeat split.
  - apply NoDup_stable_sort, NoDup_unique.
  - by apply elem_of_year_host_info.
  - by apply elem_of_year_host_info.
  - apply year_host_info_sorted.
Qed.

(** ** Medal keys *)




(** ** Map chart *)





(** ** Pie chart *)

(** C5: the pie callback returns a chart for every argument.  With no
    country selected ([None] or the empty string) the chart is a
    placeholder without data, annotated "Nenhum país selecionado"; with a
    country that has no row in the prepared table it is a placeholder
    without data, annotated "Dados não disponíveis". *)
Theorem pie_chart_never_raises (g : Globals) (selected_country : PyVal) :
  (exists fig, result_of (CallPie selected_country) g = Returns fig)
  /\ (truthy selected_country = false ->
      result_of (CallPie selected_country) g
      = Returns (mkFigure pie "Por favor, selecione um país" [] [] []
                          ["Nenhum país selecionado"] None None None))
  /\ (truthy selected_country = true ->
      (forall r, r ∈ df g -> PStr (Country_Name r) <> selected_country) ->
      result_of (CallPie selected_country) g
      = Returns (mkFigure pie
                   ("Sem dados para " +:+ py_str selected_country
                      +:+ " (1992-2020)")
                   [] [] [] ["Dados não disponíveis"] None None None)).
Proof.
  unfold result_of. simpl. unfold pie_chart. repeat split.
  - destruct (truthy selected_country); simpl; [|by eexists].
    destruct (filter _ (df g)); by eexists.
  - by intros ->.
  - intros -> Hnone. simpl. by rewrite filter_none.
Qed.

(** ** Top-N selection *)










(** ** Bar chart title *)



(** ** Totality on the dropdown values *)


(** ** Concrete runs on the sample table *)


Example sample_startup :
  fmap Country_Name (df sample_globals)
  = ["United States of America"; "Brazil"; "Brazil"; "Cuba"]
  /\ fmap Total_Medals (df sample_globals) = [121; 19; 3; 31]
  /\ all_countries sample_globals = ["Brazil"; "Cuba"; "United States of America"]
  /\ year_options sample_globals
     = [mkYearOption "Todos os anos (1992-2020)" (PStr "All");
        mkYearOption "1992 - Barcelona, Spain" (PInt 1992);
        mkYearOption "2016 - Rio de Janeiro, Brazil" (PInt 2016)].
Proof. vm_compute. done. Qed.

Example sample_pie_brazil :
  result_of (CallPie (PStr "Brazil")) sample_globals
  = Returns (mkFigure pie "Distribuição de Medalhas de Brazil (1992-2020)"
               [mkPoint "Ouro" None 9; mkPoint "Prata" None 7;
                mkPoint "Bronze" None 6]
               [] medal_color_map [] (Some ("inside", "percent+label+value"))
               None None).
Proof. vm_compute. reflexivity. Qed.

Example sample_pie_unknown_country :
  result_of (CallPie (PStr "United States")) sample_globals
  = Returns (mkFigure pie "Sem dados para United States (1992-2020)"
               [] [] [] ["Dados não disponíveis"] None None None).
Proof. vm_compute. reflexivity. Qed.

Example sample_bar_2016_gold :
  result_of (CallBar (PStr "Gold") (PInt 2016)) sample_globals
  = Returns (mkFigure bar
               "Top 10 países por Gold em 2016 - Rio de Janeiro, Brazil"
               [mkPoint "United States of America" None 46;
                mkPoint "Brazil" None 7]
               [("Country_Name", "País"); ("Gold", "Gold")]
               [] [] None (Some "gold") None).
Proof. vm_compute. reflexivity. Qed.

(** A cleared medal dropdown hands [None] to the callbacks: that value is
    outside [medal_types], and the column lookup raises. *)
Example sample_cleared_medal_dropdown :
  result_of (CallMap PNone) sample_globals = Raises KeyError
  /\ result_of (CallArea PNone) sample_globals = Raises KeyError
  /\ result_of (CallBar PNone (PStr "All")) sample_globals = Raises KeyError.
Proof. vm_compute. done. Qed.

(** A cleared year dropdown: no row has that "year", and the title falls
    back to [str(None)]. *)
Example sample_cleared_year_dropdown :
  exists fig,
    result_of (CallBar (PStr "Total_Medals") PNone) sample_globals = Returns fig
    /\ fig_data fig = []
    /\ fig_title fig = "Top 10 países por Total Medals em None".
Proof. eexists. vm_compute. done. Qed.






(** * Further properties of the script *)

(** ** Order of strings *)

Lemma ascii_compare_lt_trans (a b d : ascii) :
  Ascii.compare a b = Lt -> Ascii.compare b d = Lt -> Ascii.compare a d = Lt.
Proof.
  unfold Ascii.compare. rewrite !N.compare_lt_iff. apply N.lt_trans.
Qed.

Lemma string_compare_lt_trans (s1 s2 s3 : string) :
  String.compare s1 s2 = Lt -> String.compare s2 s3 = Lt ->
  String.compare s1 s3 = Lt.
Proof.
  revert s2 s3. induction s1 as [|a s1 IH]; intros [|b s2] [|d s3];
    simpl; try done.
  destruct (Ascii.compare a b) eqn:Hab; try done;
    destruct (Ascii.compare b d) eqn:Hbd; try done; intros H1 H2.
  - apply Ascii.compare_eq_iff in Hab, Hbd. subst.
    assert (Hdd : Ascii.compare d d = Eq).
    { unfold Ascii.compare. apply N.compare_refl. }
    rewrite Hdd. by eapply IH.
  - apply Ascii.compare_eq_iff in Hab. subst. by rewrite Hbd.
  - apply Ascii.compare_eq_iff in Hbd. subst. by rewrite Hab.
  - by rewrite (ascii_compare_lt_trans a b d).
Qed.

Lemma string_ltb_leb (s1 s2 : string) :
  String.ltb s1 s2 = true <-> String.leb s1 s2 = true /\ s1 <> s2.
Proof.
  unfold String.ltb, String.leb.
  destruct (String.compare s1 s2) eqn:Hc.
  - apply String.compare_eq_iff in Hc. split; [done|]. intros [_ Hne]. done.
  - split; [|done]. intros _. split; [done|]. intros ->.
    pose proof (String.compare_antisym s2 s2) as Hanti.
    rewrite Hc in Hanti. discriminate.
  - split; [done|]. by intros [? _].
Qed.

Lemma string_ltb_trans (s1 s2 s3 : string) :
  String.ltb s1 s2 = true -> String.ltb s2 s3 = true -> String.ltb s1 s3 = true.
Proof.
  unfold String.ltb. intros H1 H2.
  destruct (String.compare s1 s2) eqn:H12; try done.
  destruct (String.compare s2 s3) eqn:H23; try done.
  by rewrite (string_compare_lt_trans s1 s2 s3).
Qed.

(** A sorted list without repetition is strictly increasing. *)
Lemma sorted_strings_strict (l : list string) :
  NoDup l ->
  Sorted (fun a b => String.leb a b = true) l ->
  StronglySorted (fun a b => String.ltb a b = true) l.
Proof.
  intros Hnd Hs. apply Sorted_StronglySorted.
  - intros a b c. apply string_ltb_trans.
  - induction Hs as [|x l Hs IH Hhd]; constructor.
    + apply IH. by apply NoDup_cons in Hnd as [_ ?].
    + destruct Hhd as [|y l Hxy]; constructor.
      apply string_ltb_leb. split; [done|]. intros ->.
      apply NoDup_cons in Hnd as [Hnin _]. apply Hnin. by left.
Qed.

Lemma all_countries_of_strict (t : list Row) :
  StronglySorted (fun a b => String.ltb a b = true) (all_countries_of t).
Proof.
  apply sorted_strings_strict.
  - apply NoDup_stable_sort, NoDup_unique.
  - apply stable_sort_Sorted. intros x y Hxy.
    destruct (String.leb_total x y) as [H|H]; [congruence|done].
Qed.

Lemma elem_of_all_countries_of (t : list Row) (c : string) :
  c ∈ all_countries_of t <-> exists r, r ∈ t /\ Country_Name r = c.
Proof.
  unfold all_countries_of.
  rewrite elem_of_stable_sort, elem_of_unique, list_elem_of_fmap.
  split; intros (r & H1 & H2); exists r; by split.
Qed.

(** ** The column check *)

(** X1: the column check passes exactly when every expected column is
    among the columns of the loaded table, whatever their order and
    whatever other columns there are; the script then builds its globals
    from the rows.  Otherwise it exits after printing the expected columns
    that are absent (in the order of the expected list) and the columns
    that are there. *)
Theorem column_check (columns : list string) (rows : list CsvRow) :
  (forall col, col ∈ missing_cols columns
               <-> col ∈ expected_cols_from_user /\ col ∉ columns)
  /\ missing_cols columns `sublist_of` expected_cols_from_user
  /\ (load (Loaded columns rows) = Running (startup rows)
      <-> forall col, col ∈ expected_cols_from_user -> col ∈ columns)
  /\ ((exists col, col ∈ expected_cols_from_user /\ col ∉ columns) ->
      load (Loaded columns rows)
      = Exited ["Erro: O arquivo CSV está faltando as seguintes colunas esperadas: "
                  +:+ join ", " (missing_cols columns);
                "Colunas disponíveis são: " +:+ join ", " columns]).
Proof.
  assert (Hmem : forall col, col ∈ missing_cols columns
                   <-> col ∈ expected_cols_from_user /\ col ∉ columns).
  { intros col. unfold missing_cols. rewrite list_elem_of_filter. tauto. }
  split; [exact Hmem|]. split; [apply sublist_filter|]. split; [split|].
  - intros Hload col Hcol. simpl in Hload.
    destruct (missing_cols columns) as [|x l]; [|discriminate].
    destruct (decide (col ∈ columns)) as [Hin|Hnin]; [done|].
    assert (Hx : col ∈ @nil string) by by apply Hmem.
    by apply elem_of_nil in Hx.
  - intros Hall. simpl.
    destruct (missing_cols columns) as [|x l]; [done|].
    assert (Hx : x ∈ x :: l) by left.
    apply Hmem in Hx as [Hexp Hnin]. destruct Hnin. by apply Hall.
  - intros (col & Hexp & Hnin). simpl.
    destruct (missing_cols columns) as [|x l] eqn:Hmiss; [|done].
    assert (Hx : col ∈ @nil string) by by apply Hmem.
    by apply elem_of_nil in Hx.
Qed.

(** ** The prepared table and the lists derived from it *)

Lemma year_options_of_values (t : list Row) (v : PyVal) :
  v ∈ value <$> year_options_of t
  <-> v = PStr "All" \/ exists r, r ∈ t /\ v = PInt (Year r).
Proof.
  unfold year_options_of. rewrite fmap_cons, elem_of_cons. simpl.
  rewrite <- list_fmap_compose, list_elem_of_fmap. split.
  - intros [->|([[y city] country] & -> & Ht)]; [by left|right].
    apply elem_of_year_host_info in Ht as (r & Hr & <- & _). by exists r.
  - intros [->|(r & Hr & ->)]; [by left|right].
    exists (host_triple r). split; [done|].
    apply elem_of_year_host_info. by exists r.
Qed.

(** X2: every row of the prepared table has its [Year] between 1992 and
    2020, every CSV row in that range is in the table (renamed and with
    its total), and the values of the year options are ['All'] and exactly
    the years that occur in the table, so they are within 1992-2020 too. *)
Theorem prepared_years_in_range (df_full : list CsvRow) :
  Forall (fun r => 1992 <= Year r <= 2020) (df (startup df_full))
  /\ (forall r, r ∈ df_full -> 1992 <= csv_Year r <= 2020 ->
                add_total (fix_country r) ∈ df (startup df_full))
  /\ (forall v, v ∈ value <$> year_options (startup df_full)
                <-> v = PStr "All"
                    \/ exists r, r ∈ df (startup df_full) /\ v = PInt (Year r))
  /\ Forall (fun v => v = PStr "All" \/ exists y, v = PInt y /\ 1992 <= y <= 2020)
            (value <$> year_options (startup df_full)).
Proof.
  assert (Hrange : Forall (fun r => 1992 <= Year r <= 2020) (prepare df_full)).
  { rewrite prepare_rows. apply Forall_fmap, Forall_forall.
    intros r Hr. apply list_elem_of_filter in Hr as [Hr _]. exact Hr. }
  simpl. split; [exact Hrange|]. split; [|split].
  - intros r Hr Hy. rewrite prepare_rows.
    apply (list_elem_of_fmap_2 (fun r => add_total (fix_country r))).
    apply list_elem_of_filter. by split.
  - apply year_options_of_values.
  - apply Forall_forall. intros v Hv.
    apply year_options_of_values in Hv as [->|(r & Hr & ->)]; [by left|right].
    exists (Year r). split; [done|].
    rewrite Forall_forall in Hrange. by apply Hrange.
Qed.

(** X3: the country list has no repetition, is in strictly increasing
    order of the names, and holds exactly the country names of the
    prepared table. *)
Theorem all_countries_sorted_distinct (df_full : list CsvRow) :
  NoDup (all_countries (startup df_full))
  /\ StronglySorted (fun a b => String.ltb a b = true)
                    (all_countries (startup df_full))
  /\ (forall c, c ∈ all_countries (startup df_full)
                <-> exists r, r ∈ df (startup df_full) /\ Country_Name r = c).
Proof.
  simpl. split; [|split].
  - apply NoDup_stable_sort, NoDup_unique.
  - apply all_countries_of_strict.
  - apply elem_of_all_countries_of.
Qed.

(** X4: the initial value of the country dropdown is [None] exactly when
    the prepared table is empty; otherwise it is the name of a country of
    the table that comes before every other country name. *)
Theorem country_dropdown_default (df_full : list CsvRow) :
  (dd_value (country_dropdown (startup df_full)) = PNone
   <-> df (startup df_full) = [])
  /\ (forall c, dd_value (country_dropdown (startup df_full)) = PStr c ->
        (exists r, r ∈ df (startup df_full) /\ Country_Name r = c)
        /\ (forall r, r ∈ df (startup df_full) -> Country_Name r <> c ->
                      String.ltb c (Country_Name r) = true)).
Proof.
  simpl. pose proof (all_countries_of_strict (prepare df_full)) as Hs.
  pose proof (elem_of_all_countries_of (prepare df_full)) as Hmem.
  destruct (all_countries_of (prepare df_full)) as [|c0 l] eqn:Hall.
  - split; [split; [intros _|done]|done].
    destruct (prepare df_full) as [|r t]; [done|].
    assert (Hr : Country_Name r ∈ @nil string).
    { apply Hmem. exists r. split; [left|done]. }
    by apply elem_of_nil in Hr.
  - split.
    + split; [done|]. intros Hnil. rewrite Hnil in Hmem.
      assert (Hc : c0 ∈ c0 :: l) by left.
      apply Hmem in Hc as (r & Hr & _). by apply elem_of_nil in Hr.
    + intros c [= <-]. split.
      * apply Hmem. left.
      * intros r Hr Hne.
        assert (Hin : Country_Name r ∈ c0 :: l) by (apply Hmem; by exists r).
        apply elem_of_cons in Hin as [Heq|Hin]; [done|].
        apply StronglySorted_inv in Hs as [_ Hall0].
        rewrite Forall_forall in Hall0. by apply Hall0.
Qed.

(** ** Selecting the largest entries *)







(** ** Bar chart: the ten largest *)


(** ** Area chart: the points of the ten countries *)







(** ** Pie chart of a listed country, against the map *)




(** ** Bar chart: the year value *)




(** ** A session of the dashboard *)




(** ** A table without rows in the year range *)


(** ** Concrete runs of the further properties *)

Example sample_eleven_bar :
  fmap fig_names
       (match result_of (CallBar (PStr "Gold") (PStr "All")) (startup sample_eleven) with
        | Returns fig => Some fig
        | _ => None
        end)
  = Some ["K"; "J"; "I"; "H"; "G"; "F"; "E"; "D"; "C"; "B"].
Proof. vm_compute. reflexivity. Qed.

Example sample_column_check :
  load (Loaded ["Year"; "Country_Name"; "Gold"; "Silver"; "Bronze"] [])
  = Exited ["Erro: O arquivo CSV está faltando as seguintes colunas esperadas: Host_country, Host_city, Country_Code";
            "Colunas disponíveis são: Year, Country_Name, Gold, Silver, Bronze"].
Proof. vm_compute. reflexivity. Qed.






